(** * go-bigq: the Service of [service.go]

    A shallow embedding of [service.go]: the constructor [New], the
    argument parser [queryArgs], the request builder [requestQuery], the
    polling loop [waitForJob] and [Service.Query].

    The BigQuery client is an external collaborator.  Every call made on
    it is appended to a trace, and its answers are given by a responder
    that sees the trace of everything done so far, so that the answers may
    change from one call to the next (a job that completes after three
    polls, a transport failure on the second one, ...). *)

From Stdlib Require Import ZArith List String Bool Lia PeanoNat DecimalString.
Import ListNotations.
Local Open Scope string_scope.
Local Open Scope list_scope.
Local Open Scope Z_scope.

(** ** Machine integers *)

(** Go's [uint64] and [int64], as integers; a [uint64] ranges over
    [0 <= z < 2^64]. *)
Definition uint64 := Z.
Definition int64 := Z.

Definition uint64_range (z : Z) : Prop := 0 <= z < 2 ^ 64.

(** The conversion [int64(x)] of a [uint64]: the same 64 bits, read as a
    two's complement number. *)
Definition int64_of_uint64 (z : uint64) : int64 :=
  (z + 2 ^ 63) mod 2 ^ 64 - 2 ^ 63.

(** ** Go errors *)

(** The error values that [service.go] handles: the package-level
    [errInvalidConfig], and the values made by [errors.New] and
    [fmt.Errorf], which carry their message.  The errors coming from the
    collaborators are error values as well. *)
Inductive error : Type :=
| errInvalidConfig
| errors_New (msg : string).

(** The method [Error()]. *)
Definition Error (e : error) : string :=
  match e with
  | errInvalidConfig => "dataset and project can not be empty"
  | errors_New msg => msg
  end.

(** [fmt.Sprintf("%d", n)] for a length. *)
Definition Sprintf_d (n : nat) : string :=
  NilEmpty.string_of_uint (Nat.to_uint n).

(** [fmt.Errorf("too many arguments given to query: %d", n)]. *)
Definition Errorf_too_many_arguments (n : nat) : error :=
  errors_New ("too many arguments given to query: " ++ Sprintf_d n)%string.

(** A Go result [(T, error)]: either the value with a nil error, or the
    error. *)
Inductive result (A : Type) : Type :=
| Ok (a : A)
| Err (e : error).
Arguments Ok {A} a.
Arguments Err {A} e.

(** ** The types of the BigQuery API *)

Record Config : Type := mkConfig {
  DatasetID : string;
  ProjectID : string
}.

Record DatasetReference : Type := mkDatasetReference {
  DatasetId : string;
  ProjectId : string
}.

(** [bigquery.QueryRequest], with the fields that [requestQuery] sets.
    [MaxResults] is an [int64] whose zero value is left out of the request
    that is sent. *)
Record QueryRequest : Type := mkQueryRequest {
  DefaultDataset : DatasetReference;
  Query_ : string;
  MaxResults : int64
}.

Definition Row := list string.

(** Modelled from the spec: the declarations of the API's response types
    are not part of the source.  A page of rows is an ordered sequence of
    rows with an optional continuation reference. *)
Record RowPage : Type := mkRowPage {
  rows : list Row;
  continuation : option string
}.

Record JobReference : Type := mkJobReference {
  JobId : string
}.

(** Modelled from the spec: the declaration of [bigquery.QueryResponse] is
    not part of the source.  The answer to a submission says whether the
    job is complete, names the job and may hold a first page. *)
Record QueryResponse : Type := mkQueryResponse {
  JobComplete : bool;
  JobReference_ : JobReference;
  firstPage : option RowPage
}.

Record ErrorProto : Type := mkErrorProto {
  Message : string
}.

(** Modelled from the spec: the declaration of [bigquery.JobStatus] is not
    part of the source.  A status has a state and, optionally, an error
    payload ([ErrorResult] is a pointer that may be nil). *)
Record JobStatus : Type := mkJobStatus {
  State : string;
  ErrorResult : option ErrorProto
}.

Record Job : Type := mkJob {
  Status : JobStatus
}.

(** ** The collaborators and the trace of the calls made on them *)

Inductive event : Type :=
| EvClientService
    (* clientOptions.Service() *)
| EvJobsQuery (projectID : string) (req : QueryRequest)
    (* service.Jobs.Query(projectID, req).Do() *)
| EvJobsGet (projectID jobID : string)
    (* service.Jobs.Get(projectID, jobID).Do() *)
| EvSleep (ms : Z).
    (* <-time.After(ms * time.Millisecond) *)

Definition trace := list event.

(** [*bigquery.Service]: what the two calls answer, given the trace of
    what was done before the call. *)
Record bigquery_Service : Type := mkBigquery {
  Jobs_Query_Do : trace -> string -> QueryRequest -> result QueryResponse;
  Jobs_Get_Do : trace -> string -> string -> result Job
}.

(** Modelled from the spec: [ClientOptions] is declared in a file of the
    repository that is not part of the source.  Its method [Service]
    builds or obtains the backend client, and may fail. *)
Record ClientOptions : Type := mkClientOptions {
  ClientOptions_Service : trace -> result bigquery_Service
}.

Record Service : Type := mkService {
  config : Config;
  service : bigquery_Service
}.

(** Modelled from the spec: the cursor type and [newQuery] are declared in
    a file of the repository that is not part of the source.  The cursor is
    seeded with the response that holds the first page, the project, the
    offset and the page size, and keeps the client to fetch further
    pages. *)
Record Query : Type := mkQuery {
  q_service : bigquery_Service;
  q_response : QueryResponse;
  q_projectID : string;
  q_offset : uint64;
  q_pageSize : uint64
}.

Definition newQuery (svc : bigquery_Service) (resp : QueryResponse)
    (projectID : string) (start maxResults : uint64) : Query :=
  mkQuery svc resp projectID start maxResults.

(** ** Computations

    A computation takes the trace so far and gives a Go result and the
    trace extended with the calls it made; [None] means that the polling
    loop has not returned within the number of iterations allowed. *)
Definition IO (A : Type) : Type := trace -> option (result A * trace).

Definition ret {A : Type} (a : A) : IO A :=
  fun t => Some (Ok a, t).

(** [return nil, err] *)
Definition fail {A : Type} (e : error) : IO A :=
  fun t => Some (Err e, t).

(** [x, err := m; if err != nil { return nil, err }; k x] *)
Definition bind {A B : Type} (m : IO A) (k : A -> IO B) : IO B :=
  fun t =>
    match m t with
    | None => None
    | Some (Err e, t') => Some (Err e, t')
    | Some (Ok a, t') => k a t'
    end.

Declare Scope io_scope.
Delimit Scope io_scope with io.
Notation "x <- m ;; k" := (bind m (fun x => k))
  (at level 100, m at next level, right associativity) : io_scope.
Notation "m ;;; k" := (bind m (fun _ => k))
  (at level 100, right associativity) : io_scope.

(** A call on a collaborator: answered from the trace before the call,
    then recorded. *)
Definition call {A : Type} (ev : event) (answer : trace -> result A) : IO A :=
  fun t => Some (answer t, t ++ [ev]).

Definition sleep (ms : Z) : IO unit :=
  fun t => Some (Ok tt, t ++ [EvSleep ms]).

(** ** [service.go] *)

Definition New (clientOptions : ClientOptions) (config : Config)
    : IO Service :=
  (bqService <- call EvClientService (ClientOptions_Service clientOptions) ;;
   if (DatasetID config =? "")%string || (ProjectID config =? "")%string
   then fail errInvalidConfig
   else ret (mkService config bqService))%io.

(** [queryArgs] returns [(start, maxResults, err)]. *)
Definition queryArgs (args : list uint64) : result (uint64 * uint64) :=
  match args with
  | [] => Ok (0, 0)
  | [a0] => Ok (a0, 0)
  | [a0; a1] => Ok (a0, a1)
  | _ => Err (Errorf_too_many_arguments (List.length args))
  end.

(** The request that [requestQuery] builds. *)
Definition buildRequest (s : Service) (query : string) (maxResults : uint64)
    : QueryRequest :=
  let req :=
    mkQueryRequest
      (mkDatasetReference (DatasetID (config s)) (ProjectID (config s)))
      query 0 in
  if 0 <? maxResults
  then mkQueryRequest (DefaultDataset req) (Query_ req)
         (int64_of_uint64 maxResults)
  else req.

Definition requestQuery (s : Service) (query : string) (maxResults : uint64)
    : IO QueryResponse :=
  let req := buildRequest s query maxResults in
  call (EvJobsQuery (ProjectID (config s)) req)
       (fun t => Jobs_Query_Do (service s) t (ProjectID (config s)) req).

(** [waitForJob], with a bound [fuel] on the number of turns of its loop:
    [None] when the loop is still running after [fuel] turns. *)
Fixpoint waitForJob (fuel : nat) (s : Service) (jobID : string) : IO unit :=
  match fuel with
  | O => fun _ => None
  | S fuel' =>
      (job <- call (EvJobsGet (ProjectID (config s)) jobID)
                (fun t => Jobs_Get_Do (service s) t (ProjectID (config s)) jobID) ;;
       if (State (Status job) =? "DONE")%string then
         match ErrorResult (Status job) with
         | Some e => fail (errors_New (Message e))
         | None => ret tt
         end
       else
         (sleep 300 ;;; waitForJob fuel' s jobID))%io
  end.

Definition Service_Query (fuel : nat) (s : Service) (query : string)
    (args : list uint64) : IO Query :=
  match queryArgs args with
  | Err err => fail err
  | Ok (start, maxResults) =>
      (resp <- requestQuery s query maxResults ;;
       (if negb (JobComplete resp)
        then waitForJob fuel s (JobId (JobReference_ resp))
        else ret tt) ;;;
       ret (newQuery (service s) resp (ProjectID (config s)) start maxResults))%io
  end.

(** ** Observations on requests and traces *)

(** The result-limit hint that a request carries. *)
Definition limit_hint (req : QueryRequest) : option int64 :=
  if MaxResults req =? 0 then None else Some (MaxResults req).

Definition is_poll (e : event) : bool :=
  match e with
  | EvJobsGet _ _ => true
  | _ => false
  end.

Definition count_polls (t : trace) : nat := List.length (filter is_poll t).

Definition is_submit (e : event) : bool :=
  match e with
  | EvJobsQuery _ _ => true
  | _ => false
  end.

(** The query requests of a trace. *)
Definition submissions (t : trace) : list event := filter is_submit t.

(** The time slept in a trace, in milliseconds. *)
Fixpoint slept (t : trace) : Z :=
  match t with
  | [] => 0
  | EvSleep ms :: t' => ms + slept t'
  | _ :: t' => slept t'
  end.

(** The events of [k] polls that found the job still running. *)
Fixpoint polls (s : Service) (jobID : string) (k : nat) : trace :=
  match k with
  | O => []
  | S k' =>
      EvJobsGet (ProjectID (config s)) jobID :: EvSleep 300 :: polls s jobID k'
  end.

(** The answer to poll number [k] (from 0) of a loop entered at trace
    [t], the polls before it having found the job running. *)
Definition status_at (s : Service) (jobID : string) (t : trace) (k : nat)
    : result Job :=
  Jobs_Get_Do (service s) (t ++ polls s jobID k) (ProjectID (config s)) jobID.

(** An answer that ends the wait: a communication error, or a status
    whose state is DONE. *)
Definition terminal (r : result Job) : bool :=
  match r with
  | Err _ => true
  | Ok job => (State (Status job) =? "DONE")%string
  end.

(** The trace once the query is submitted from trace [t]. *)
Definition submitted (s : Service) (query : string) (maxResults : uint64)
    (t : trace) : trace :=
  t ++ [EvJobsQuery (ProjectID (config s)) (buildRequest s query maxResults)].

(** The answer of the backend to the submission. *)
Definition submission (s : Service) (query : string) (maxResults : uint64)
    (t : trace) : result QueryResponse :=
  Jobs_Query_Do (service s) t (ProjectID (config s))
    (buildRequest s query maxResults).

(** The cursor [q] with another offset. *)
Definition with_offset (start : uint64) (q : Query) : Query :=
  mkQuery (q_service q) (q_response q) (q_projectID q) start (q_pageSize q).

Definition map_cursor (f : Query -> Query)
    (out : option (result Query * trace)) : option (result Query * trace) :=
  match out with
  | Some (Ok q, t') => Some (Ok (f q), t')
  | Some (Err err, t') => Some (Err err, t')
  | None => None
  end.

(** ** Sample collaborators *)

Definition samplePage : RowPage := mkRowPage [["1"]] None.

Definition runningJob : Job := mkJob (mkJobStatus "RUNNING" None).
Definition doneJob : Job := mkJob (mkJobStatus "DONE" None).
Definition failedJob (msg : string) : Job :=
  mkJob (mkJobStatus "DONE" (Some (mkErrorProto msg))).

(** A backend that completes every query at once. *)
Definition fastBackend : bigquery_Service :=
  mkBigquery
    (fun _ _ _ =>
       Ok (mkQueryResponse true (mkJobReference "job_1") (Some samplePage)))
    (fun _ _ _ => Ok doneJob).

(** A backend that does not complete the query at submission, reports the
    job as running on the first [n] polls and answers [final] from then
    on. *)
Definition slowBackend (n : nat) (final : result Job) : bigquery_Service :=
  mkBigquery
    (fun _ _ _ => Ok (mkQueryResponse false (mkJobReference "job_1") None))
    (fun t _ _ => if (count_polls t <? n)%nat then Ok runningJob else final).

(** A backend whose job never leaves the running state. *)
Definition stuckBackend : bigquery_Service :=
  mkBigquery
    (fun _ _ _ => Ok (mkQueryResponse false (mkJobReference "job_1") None))
    (fun _ _ _ => Ok runningJob).

Definition sampleConfig : Config := mkConfig "dataset" "project".

Definition workingOptions : ClientOptions :=
  mkClientOptions (fun _ => Ok fastBackend).

(** A backend that follows a script: poll number [k] is answered [f k]. *)
Definition scriptedBackend (submit : result QueryResponse)
    (f : nat -> result Job) : bigquery_Service :=
  mkBigquery (fun _ _ _ => submit) (fun t _ _ => f (count_polls t)).

(** A client factory that fails, and a config with both fields empty. *)
Definition noCredentials : error := errors_New "no credentials".

Definition brokenOptions : ClientOptions :=
  mkClientOptions (fun _ => Err noCredentials).

Definition emptyConfig : Config := mkConfig "" "".

Definition connectionReset : error := errors_New "connection reset by peer".

(** A backend whose job stays in the state RUNNING, with an error payload
    on every status. *)
Definition stalledBackend : bigquery_Service :=
  mkBigquery
    (fun _ _ _ => Ok (mkQueryResponse false (mkJobReference "job_1") None))
    (fun _ _ _ =>
       Ok (mkJob (mkJobStatus "RUNNING" (Some (mkErrorProto "backend error"))))).

(** A backend that is out of reach: the submission fails. *)
Definition downBackend : bigquery_Service :=
  scriptedBackend (Err connectionReset) (fun _ => Err connectionReset).

(** * Properties *)

(** ** Checks of the definitions on sample inputs *)

Example Sprintf_d_3 : Sprintf_d 3 = "3"%string.
Proof. reflexivity. Qed.

Example Sprintf_d_12 : Sprintf_d 12 = "12"%string.
Proof. reflexivity. Qed.

Example int64_of_uint64_10 : int64_of_uint64 10 = 10.
Proof. reflexivity. Qed.

Example int64_of_uint64_max : int64_of_uint64 (2 ^ 64 - 1) = -1.
Proof. reflexivity. Qed.

Example queryArgs_three :
  queryArgs [1; 2; 3] =
    Err (errors_New "too many arguments given to query: 3").
Proof. reflexivity. Qed.

Example New_sample :
  New workingOptions sampleConfig [] =
    Some (Ok (mkService sampleConfig fastBackend), [EvClientService]).
Proof. reflexivity. Qed.

Example waitForJob_two_polls :
  waitForJob 5 (mkService sampleConfig (slowBackend 1 (Ok doneJob))) "job_1" [] =
    Some (Ok tt, [EvJobsGet "project" "job_1"; EvSleep 300;
                  EvJobsGet "project" "job_1"]).
Proof. reflexivity. Qed.

Example waitForJob_out_of_turns :
  waitForJob 1 (mkService sampleConfig (slowBackend 1 (Ok doneJob))) "job_1" [] =
    None.
Proof. reflexivity. Qed.

Example Query_page_size_10 :
  limit_hint (buildRequest (mkService sampleConfig fastBackend) "SELECT 1" 10)
  = Some 10.
Proof. reflexivity. Qed.

Example Query_page_size_0 :
  limit_hint (buildRequest (mkService sampleConfig fastBackend) "SELECT 1" 0)
  = None.
Proof. reflexivity. Qed.

(** ** Argument parsing *)

(** C3: with no extra argument the offset and the page size are 0; with
    one argument [a] the offset is [a] and the page size 0; with two
    arguments [a] and [b] the offset is [a] and the page size [b]. *)
Theorem queryArgs_positional :
  queryArgs [] = Ok (0, 0) /\
  (forall a, queryArgs [a] = Ok (a, 0)) /\
  (forall a b, queryArgs [a; b] = Ok (a, b)).
Proof.
  repeat split.
Qed.

(** ** Construction *)

Lemma eqb_empty_or (a b : string) :
  a = ""%string \/ b = ""%string ->
  (a =? "")%string || (b =? "")%string = true.
Proof.
  intros [-> | ->]; [reflexivity | apply orb_true_r].
Qed.

(** C1, as the code has it: [New] asks the client factory first, once, and
    looks at the config after; with an empty dataset or project it fails
    with the factory's error when the factory fails, and with
    [errInvalidConfig] when the factory succeeds.  No request is issued on
    the client. *)
Theorem New_invalid_config (clientOptions : ClientOptions) (cfg : Config)
    (t : trace) :
  DatasetID cfg = ""%string \/ ProjectID cfg = ""%string ->
  New clientOptions cfg t =
    Some (match ClientOptions_Service clientOptions t with
          | Ok _ => Err errInvalidConfig
          | Err e => Err e
          end,
          t ++ [EvClientService]).
Proof.
  intros Hempty. unfold New, bind, call, fail.
  destruct (ClientOptions_Service clientOptions t) as [bq | e]; [| reflexivity].
  now rewrite (eqb_empty_or _ _ Hempty).
Qed.

Lemma New_invalid_config_witness :
  New workingOptions emptyConfig [] =
    Some (Err errInvalidConfig, [EvClientService]).
Proof.
  apply (New_invalid_config workingOptions emptyConfig []).
  left; reflexivity.
Defined.

(** C1, as stated, fails: with an empty config and a factory that fails,
    the factory is consulted and [New] fails with the factory's error, which
    is not [errInvalidConfig]. *)
Lemma New_invalid_config_consults_factory :
  (DatasetID emptyConfig = ""%string \/ ProjectID emptyConfig = ""%string) /\
  New brokenOptions emptyConfig [] <> Some (Err errInvalidConfig, []) /\
  New brokenOptions emptyConfig [] =
    Some (Err noCredentials, [EvClientService]) /\
  noCredentials <> errInvalidConfig.
Proof.
  repeat split; try discriminate. left; reflexivity.
Qed.

(** With a valid config, [New] gives the service that wraps the config and
    the client. *)
Lemma New_valid_config (clientOptions : ClientOptions) (cfg : Config)
    (t : trace) (bq : bigquery_Service) :
  DatasetID cfg <> ""%string -> ProjectID cfg <> ""%string ->
  ClientOptions_Service clientOptions t = Ok bq ->
  New clientOptions cfg t = Some (Ok (mkService cfg bq), t ++ [EvClientService]).
Proof.
  intros Hd Hp Hbq. unfold New, bind, call, ret. rewrite Hbq.
  apply String.eqb_neq in Hd, Hp. now rewrite Hd, Hp.
Qed.

(** ** Too many arguments *)

Lemma queryArgs_too_many (args : list uint64) :
  (2 < List.length args)%nat ->
  queryArgs args = Err (Errorf_too_many_arguments (List.length args)).
Proof.
  destruct args as [| a0 [| a1 [| a2 rest]]]; simpl; intros H; try lia.
  reflexivity.
Qed.

Lemma queryArgs_ok_length (args : list uint64) (start maxResults : uint64) :
  queryArgs args = Ok (start, maxResults) -> (List.length args <= 2)%nat.
Proof.
  destruct args as [| a0 [| a1 [| a2 rest]]]; simpl; intros H;
    try lia; discriminate.
Qed.

(** C2: with more than two arguments, [Query] fails with the error whose
    message is "too many arguments given to query: " followed by the number
    of arguments, and the trace is the one it started from: nothing was
    asked of the backend. *)
Theorem Query_too_many_arguments (fuel : nat) (s : Service) (query : string)
    (args : list uint64) (t : trace) :
  (2 < List.length args)%nat ->
  Service_Query fuel s query args t =
    Some (Err (Errorf_too_many_arguments (List.length args)), t) /\
  Error (Errorf_too_many_arguments (List.length args)) =
    ("too many arguments given to query: " ++ Sprintf_d (List.length args))%string.
Proof.
  intros Hlen. split; [| reflexivity].
  unfold Service_Query. now rewrite (queryArgs_too_many _ Hlen).
Qed.

Lemma Query_too_many_arguments_witness :
  Service_Query 0 (mkService sampleConfig fastBackend) "SELECT 1" [1; 2; 3] [] =
    Some (Err (errors_New "too many arguments given to query: 3"), []).
Proof.
  apply (Query_too_many_arguments 0 (mkService sampleConfig fastBackend)
           "SELECT 1" [1; 2; 3] []).
  simpl. lia.
Defined.

(** ** The polling loop *)

Section Polling.

Variable s : Service.
Variable jobID : string.

Lemma polls_shift (t : trace) (k : nat) :
  (t ++ [EvJobsGet (ProjectID (config s)) jobID]) ++ [EvSleep 300] ++ polls s jobID k
  = t ++ polls s jobID (S k).
Proof.
  simpl. now rewrite <- app_assoc.
Qed.

Lemma status_at_shift (t : trace) (k : nat) :
  status_at s jobID ((t ++ [EvJobsGet (ProjectID (config s)) jobID]) ++ [EvSleep 300]) k
  = status_at s jobID t (S k).
Proof.
  unfold status_at. now rewrite <- polls_shift, !app_assoc.
Qed.

Lemma status_at_0 (t : trace) :
  status_at s jobID t 0 = Jobs_Get_Do (service s) t (ProjectID (config s)) jobID.
Proof.
  unfold status_at. simpl. now rewrite app_nil_r.
Qed.

(** One turn of the loop, by the answer it gets. *)
Lemma waitForJob_step (fuel : nat) (t : trace) :
  waitForJob (S fuel) s jobID t =
    match status_at s jobID t 0 with
    | Err err => Some (Err err, t ++ [EvJobsGet (ProjectID (config s)) jobID])
    | Ok job =>
        if (State (Status job) =? "DONE")%string then
          match ErrorResult (Status job) with
          | Some e =>
              Some (Err (errors_New (Message e)),
                    t ++ [EvJobsGet (ProjectID (config s)) jobID])
          | None => Some (Ok tt, t ++ [EvJobsGet (ProjectID (config s)) jobID])
          end
        else
          waitForJob fuel s jobID
            ((t ++ [EvJobsGet (ProjectID (config s)) jobID]) ++ [EvSleep 300])
    end.
Proof.
  rewrite status_at_0. cbn [waitForJob]. unfold bind, call, sleep, fail, ret.
  destruct (Jobs_Get_Do (service s) t (ProjectID (config s)) jobID)
    as [job | err]; [| reflexivity].
  destruct (State (Status job) =? "DONE")%string; [| reflexivity].
  now destruct (ErrorResult (Status job)).
Qed.

Lemma waitForJob_continue (fuel : nat) (t : trace) :
  terminal (status_at s jobID t 0) = false ->
  waitForJob (S fuel) s jobID t =
    waitForJob fuel s jobID
      ((t ++ [EvJobsGet (ProjectID (config s)) jobID]) ++ [EvSleep 300]).
Proof.
  intros Hrun. rewrite waitForJob_step.
  destruct (status_at s jobID t 0) as [job | err]; simpl in Hrun; [| discriminate].
  now rewrite Hrun.
Qed.

(** While the answers are not terminal the loop keeps polling: after [k]
    such answers it is where it started, [k] polls later. *)
Lemma waitForJob_running_prefix (k fuel : nat) (t : trace) :
  (forall i, (i < k)%nat -> terminal (status_at s jobID t i) = false) ->
  waitForJob (k + fuel) s jobID t = waitForJob fuel s jobID (t ++ polls s jobID k).
Proof.
  revert t. induction k as [| k IH]; intros t Hrun.
  - simpl. now rewrite app_nil_r.
  - replace (S k + fuel)%nat with (S (k + fuel)) by lia.
    rewrite waitForJob_continue by (apply Hrun; lia).
    rewrite IH.
    + now rewrite <- polls_shift, !app_assoc.
    + intros i Hi. rewrite status_at_shift. apply Hrun. lia.
Qed.

(** The loop returns as soon as an answer is terminal. *)
Lemma waitForJob_returns_at (k fuel : nat) (t : trace) :
  (forall i, (i < k)%nat -> terminal (status_at s jobID t i) = false) ->
  terminal (status_at s jobID t k) = true ->
  (k < fuel)%nat ->
  waitForJob fuel s jobID t =
    Some (match status_at s jobID t k with
          | Err err => Err err
          | Ok job =>
              match ErrorResult (Status job) with
              | Some e => Err (errors_New (Message e))
              | None => Ok tt
              end
          end,
          t ++ polls s jobID k ++ [EvJobsGet (ProjectID (config s)) jobID]).
Proof.
  intros Hrun Hterm Hfuel.
  replace fuel with (k + S (fuel - S k))%nat by lia.
  rewrite (waitForJob_running_prefix k _ t Hrun), waitForJob_step.
  assert (Hk : status_at s jobID (t ++ polls s jobID k) 0 = status_at s jobID t k).
  { unfold status_at. simpl. now rewrite app_nil_r. }
  rewrite Hk, app_assoc.
  destruct (status_at s jobID t k) as [job | err]; simpl in Hterm; [| reflexivity].
  rewrite Hterm. now destruct (ErrorResult (Status job)).
Qed.

(** An unbounded run of non-terminal answers keeps the loop going. *)
Lemma waitForJob_diverges (fuel : nat) (t : trace) :
  (forall k, terminal (status_at s jobID t k) = false) ->
  waitForJob fuel s jobID t = None.
Proof.
  revert t. induction fuel as [| fuel IH]; intros t Hrun; [reflexivity |].
  rewrite waitForJob_continue by apply Hrun.
  apply IH. intros k. rewrite status_at_shift. apply Hrun.
Qed.

Lemma waitForJob_returns_terminal (fuel : nat) (t : trace) :
  waitForJob fuel s jobID t <> None ->
  exists k, (k < fuel)%nat /\ terminal (status_at s jobID t k) = true.
Proof.
  revert t. induction fuel as [| fuel IH]; intros t Hret.
  - now contradiction Hret.
  - destruct (terminal (status_at s jobID t 0)) eqn:H0.
    + exists 0%nat. split; [lia | exact H0].
    + rewrite waitForJob_continue in Hret by exact H0.
      destruct (IH _ Hret) as [k [Hk Hterm]].
      exists (S k). split; [lia |]. now rewrite <- status_at_shift.
Qed.

Lemma terminal_returns (k : nat) (t : trace) :
  terminal (status_at s jobID t k) = true ->
  waitForJob (S k) s jobID t <> None.
Proof.
  revert t. induction k as [| k IH]; intros t Hterm.
  - rewrite waitForJob_step.
    destruct (status_at s jobID t 0) as [job | err]; simpl in Hterm; [| discriminate].
    rewrite Hterm. now destruct (ErrorResult (Status job)).
  - destruct (terminal (status_at s jobID t 0)) eqn:H0.
    + rewrite waitForJob_step.
      destruct (status_at s jobID t 0) as [job | err]; simpl in H0; [| discriminate].
      rewrite H0. now destruct (ErrorResult (Status job)).
    + rewrite waitForJob_continue by exact H0.
      apply IH. now rewrite status_at_shift.
Qed.

End Polling.

Lemma count_polls_app (t u : trace) :
  count_polls (t ++ u) = (count_polls t + count_polls u)%nat.
Proof.
  unfold count_polls. now rewrite filter_app, length_app.
Qed.

Lemma count_polls_polls (s : Service) (jobID : string) (k : nat) :
  count_polls (polls s jobID k) = k.
Proof.
  induction k as [| k IH]; [reflexivity |].
  unfold count_polls in *. simpl. now rewrite IH.
Qed.

(** Every sequence of answers is the sequence of statuses of some
    backend. *)
Lemma status_at_scripted (cfg : Config) (submit : result QueryResponse)
    (f : nat -> result Job) (jobID : string) (t : trace) (k : nat) :
  status_at (mkService cfg (scriptedBackend submit f)) jobID t k
  = f (count_polls t + k)%nat.
Proof.
  unfold status_at. simpl. now rewrite count_polls_app, count_polls_polls.
Qed.

Lemma waitForJob_returns_iff (s : Service) (jobID : string) (t : trace) :
  (exists fuel out, waitForJob fuel s jobID t = Some out) <->
  (exists k, terminal (status_at s jobID t k) = true).
Proof.
  split.
  - intros [fuel [out Hout]].
    destruct (waitForJob_returns_terminal s jobID fuel t) as [k [_ Hk]].
    + now rewrite Hout.
    + now exists k.
  - intros [k Hk]. exists (S k).
    pose proof (terminal_returns s jobID k t Hk) as Hret.
    destruct (waitForJob (S k) s jobID t) as [out |]; [now exists out |].
    now contradiction Hret.
Qed.

(** The same for a sequence of answers given beforehand. *)
Lemma waitForJob_scripted (cfg : Config) (submit : result QueryResponse)
    (f : nat -> result Job) (jobID : string) :
  (exists fuel out,
     waitForJob fuel (mkService cfg (scriptedBackend submit f)) jobID []
     = Some out) <->
  (exists k, terminal (f k) = true).
Proof.
  rewrite waitForJob_returns_iff. split; intros [k Hk]; exists k.
  - now rewrite status_at_scripted in Hk.
  - now rewrite status_at_scripted.
Qed.

(** C8: the loop of [waitForJob] has no bound on its turns.  It returns
    within some number of turns exactly when some answer of the backend is
    a communication error or has state DONE; when every answer is a
    status other than DONE, it is still polling after any number of
    turns. *)
Theorem waitForJob_unbounded (s : Service) (jobID : string) (t : trace) :
  ((exists fuel out, waitForJob fuel s jobID t = Some out) <->
   (exists k, terminal (status_at s jobID t k) = true)) /\
  ((forall k, terminal (status_at s jobID t k) = false) ->
   forall fuel, waitForJob fuel s jobID t = None).
Proof.
  split.
  - apply waitForJob_returns_iff.
  - intros Hrun fuel. now apply waitForJob_diverges.
Qed.

Lemma waitForJob_unbounded_witness :
  waitForJob 25 (mkService sampleConfig stuckBackend) "job_1" [] = None.
Proof.
  apply (proj2 (waitForJob_unbounded
                  (mkService sampleConfig stuckBackend) "job_1" [])).
  intros k. reflexivity.
Defined.

(** ** [Service.Query] *)

Section QueryRun.

Variable s : Service.
Variable query : string.
Variable args : list uint64.
Variables start maxResults : uint64.
Variable t : trace.

Hypothesis Hargs : queryArgs args = Ok (start, maxResults).

Lemma Query_run (fuel : nat) :
  Service_Query fuel s query args t =
    match submission s query maxResults t with
    | Err err => Some (Err err, submitted s query maxResults t)
    | Ok resp =>
        let q := newQuery (service s) resp (ProjectID (config s))
                   start maxResults in
        if JobComplete resp then Some (Ok q, submitted s query maxResults t)
        else
          match waitForJob fuel s (JobId (JobReference_ resp))
                  (submitted s query maxResults t) with
          | None => None
          | Some (Err err, t') => Some (Err err, t')
          | Some (Ok _, t') => Some (Ok q, t')
          end
    end.
Proof.
  unfold Service_Query, submission, submitted. rewrite Hargs.
  unfold requestQuery, bind, call, ret.
  destruct (Jobs_Query_Do _ _ _ _) as [resp | err]; [| reflexivity].
  destruct (JobComplete resp); simpl; [reflexivity |].
  destruct (waitForJob _ _ _ _) as [[[u | err] t'] |]; reflexivity.
Qed.

End QueryRun.

(** C5: when the answer to the submission says that the job is complete,
    [Query] polls no status (the only event added to the trace is the
    submission) and returns the cursor made from that answer, which holds
    the first page. *)
Theorem Query_job_complete (fuel : nat) (s : Service) (query : string)
    (args : list uint64) (start maxResults : uint64) (t : trace)
    (resp : QueryResponse) :
  queryArgs args = Ok (start, maxResults) ->
  submission s query maxResults t = Ok resp ->
  JobComplete resp = true ->
  Service_Query fuel s query args t =
    Some (Ok (newQuery (service s) resp (ProjectID (config s))
                start maxResults),
          t ++ [EvJobsQuery (ProjectID (config s))
                  (buildRequest s query maxResults)]) /\
  count_polls (submitted s query maxResults t) = count_polls t /\
  firstPage
    (q_response (newQuery (service s) resp (ProjectID (config s))
                   start maxResults)) = firstPage resp.
Proof.
  intros Hargs Hresp Hdone. repeat split.
  - rewrite (Query_run s query args start maxResults t Hargs), Hresp.
    simpl. now rewrite Hdone.
  - unfold submitted. rewrite count_polls_app. unfold count_polls. simpl. lia.
Qed.

Lemma Query_job_complete_witness :
  Service_Query 0 (mkService sampleConfig fastBackend) "SELECT 1" [5; 10] [] =
    Some (Ok (mkQuery fastBackend
                (mkQueryResponse true (mkJobReference "job_1") (Some samplePage))
                "project" 5 10),
          [EvJobsQuery "project"
             (mkQueryRequest (mkDatasetReference "dataset" "project")
                "SELECT 1" 10)]).
Proof.
  apply (Query_job_complete 0 (mkService sampleConfig fastBackend) "SELECT 1"
           [5; 10] 5 10 []
           (mkQueryResponse true (mkJobReference "job_1") (Some samplePage)));
    reflexivity.
Defined.

(** C6: when, after [k] polls that found the job running, the backend
    reports the state DONE with an error payload, the wait ends in
    failure and [Query] fails with the error made from the message of the
    payload. *)
Theorem Query_job_failed (fuel k : nat) (s : Service) (query : string)
    (args : list uint64) (start maxResults : uint64) (t : trace)
    (resp : QueryResponse) (job : Job) (e : ErrorProto) :
  queryArgs args = Ok (start, maxResults) ->
  submission s query maxResults t = Ok resp ->
  JobComplete resp = false ->
  (forall i, (i < k)%nat ->
     terminal (status_at s (JobId (JobReference_ resp))
                 (submitted s query maxResults t) i) = false) ->
  status_at s (JobId (JobReference_ resp)) (submitted s query maxResults t) k
    = Ok job ->
  State (Status job) = "DONE"%string ->
  ErrorResult (Status job) = Some e ->
  (k < fuel)%nat ->
  waitForJob fuel s (JobId (JobReference_ resp))
      (submitted s query maxResults t) =
    Some (Err (errors_New (Message e)),
          submitted s query maxResults t
          ++ polls s (JobId (JobReference_ resp)) k
          ++ [EvJobsGet (ProjectID (config s)) (JobId (JobReference_ resp))]) /\
  Service_Query fuel s query args t =
    Some (Err (errors_New (Message e)),
          submitted s query maxResults t
          ++ polls s (JobId (JobReference_ resp)) k
          ++ [EvJobsGet (ProjectID (config s)) (JobId (JobReference_ resp))]) /\
  Error (errors_New (Message e)) = Message e.
Proof.
  intros Hargs Hresp Hnot Hrun Hk Hstate Herr Hfuel.
  assert (Hwait :
    waitForJob fuel s (JobId (JobReference_ resp))
        (submitted s query maxResults t) =
      Some (Err (errors_New (Message e)),
            submitted s query maxResults t
            ++ polls s (JobId (JobReference_ resp)) k
            ++ [EvJobsGet (ProjectID (config s)) (JobId (JobReference_ resp))])).
  { rewrite (waitForJob_returns_at s _ k fuel _ Hrun); [| | exact Hfuel].
    - now rewrite Hk, Herr.
    - rewrite Hk. simpl. now rewrite Hstate. }
  repeat split; [exact Hwait |].
  rewrite (Query_run s query args start maxResults t Hargs), Hresp.
  simpl. now rewrite Hnot, Hwait.
Qed.

Lemma Query_job_failed_witness :
  Service_Query 3
    (mkService sampleConfig (slowBackend 2 (Ok (failedJob "quota exceeded"))))
    "SELECT 1" [] [] =
    Some (Err (errors_New "quota exceeded"),
          [EvJobsQuery "project"
             (mkQueryRequest (mkDatasetReference "dataset" "project")
                "SELECT 1" 0);
           EvJobsGet "project" "job_1"; EvSleep 300;
           EvJobsGet "project" "job_1"; EvSleep 300;
           EvJobsGet "project" "job_1"]).
Proof.
  apply (Query_job_failed 3 2
           (mkService sampleConfig
              (slowBackend 2 (Ok (failedJob "quota exceeded"))))
           "SELECT 1" [] 0 0 []
           (mkQueryResponse false (mkJobReference "job_1") None)
           (failedJob "quota exceeded") (mkErrorProto "quota exceeded"));
    try reflexivity; try lia.
  intros [| [| i]] Hi; [reflexivity | reflexivity | lia].
Defined.

(** C7: when, after [k] polls that found the job running, a poll fails,
    the wait stops there: [Query] fails with that very error, and the
    failed poll is the last event of the trace. *)
Theorem Query_poll_error (fuel k : nat) (s : Service) (query : string)
    (args : list uint64) (start maxResults : uint64) (t : trace)
    (resp : QueryResponse) (err : error) :
  queryArgs args = Ok (start, maxResults) ->
  submission s query maxResults t = Ok resp ->
  JobComplete resp = false ->
  (forall i, (i < k)%nat ->
     terminal (status_at s (JobId (JobReference_ resp))
                 (submitted s query maxResults t) i) = false) ->
  status_at s (JobId (JobReference_ resp)) (submitted s query maxResults t) k
    = Err err ->
  (k < fuel)%nat ->
  Service_Query fuel s query args t =
    Some (Err err,
          submitted s query maxResults t
          ++ polls s (JobId (JobReference_ resp)) k
          ++ [EvJobsGet (ProjectID (config s)) (JobId (JobReference_ resp))]) /\
  count_polls
    (submitted s query maxResults t
     ++ polls s (JobId (JobReference_ resp)) k
     ++ [EvJobsGet (ProjectID (config s)) (JobId (JobReference_ resp))])
  = (count_polls t + k + 1)%nat.
Proof.
  intros Hargs Hresp Hnot Hrun Hk Hfuel. split.
  - rewrite (Query_run s query args start maxResults t Hargs), Hresp.
    simpl. rewrite Hnot.
    rewrite (waitForJob_returns_at s _ k fuel _ Hrun); [| | exact Hfuel].
    + now rewrite Hk.
    + now rewrite Hk.
  - unfold submitted.
    rewrite !count_polls_app, count_polls_polls. unfold count_polls. simpl. lia.
Qed.

Lemma Query_poll_error_witness :
  Service_Query 7
    (mkService sampleConfig (slowBackend 1 (Err connectionReset)))
    "SELECT 1" [4] [] =
    Some (Err connectionReset,
          [EvJobsQuery "project"
             (mkQueryRequest (mkDatasetReference "dataset" "project")
                "SELECT 1" 0);
           EvJobsGet "project" "job_1"; EvSleep 300;
           EvJobsGet "project" "job_1"]).
Proof.
  apply (Query_poll_error 7 1
           (mkService sampleConfig (slowBackend 1 (Err connectionReset)))
           "SELECT 1" [4] 4 0 []
           (mkQueryResponse false (mkJobReference "job_1") None)
           connectionReset);
    try reflexivity; try lia.
  intros [| i] Hi; [reflexivity | lia].
Defined.

(** C10: when the answer to the submission says that the job is not
    complete and the wait succeeds, the cursor that [Query] returns is
    made from that first answer, and nothing is fetched after the poll
    that found the job done. *)
Theorem Query_seeded_with_submission (fuel k : nat) (s : Service)
    (query : string) (args : list uint64) (start maxResults : uint64)
    (t : trace) (resp : QueryResponse) (job : Job) :
  queryArgs args = Ok (start, maxResults) ->
  submission s query maxResults t = Ok resp ->
  JobComplete resp = false ->
  (forall i, (i < k)%nat ->
     terminal (status_at s (JobId (JobReference_ resp))
                 (submitted s query maxResults t) i) = false) ->
  status_at s (JobId (JobReference_ resp)) (submitted s query maxResults t) k
    = Ok job ->
  State (Status job) = "DONE"%string ->
  ErrorResult (Status job) = None ->
  (k < fuel)%nat ->
  Service_Query fuel s query args t =
    Some (Ok (newQuery (service s) resp (ProjectID (config s))
                start maxResults),
          submitted s query maxResults t
          ++ polls s (JobId (JobReference_ resp)) k
          ++ [EvJobsGet (ProjectID (config s)) (JobId (JobReference_ resp))]) /\
  q_response (newQuery (service s) resp (ProjectID (config s))
                start maxResults) = resp.
Proof.
  intros Hargs Hresp Hnot Hrun Hk Hstate Herr Hfuel. split; [| reflexivity].
  rewrite (Query_run s query args start maxResults t Hargs), Hresp.
  simpl. rewrite Hnot.
  rewrite (waitForJob_returns_at s _ k fuel _ Hrun); [| | exact Hfuel].
  - now rewrite Hk, Herr.
  - rewrite Hk. simpl. now rewrite Hstate.
Qed.

Lemma Query_seeded_with_submission_witness :
  Service_Query 2
    (mkService sampleConfig (slowBackend 1 (Ok doneJob)))
    "SELECT 1" [5; 10] [] =
    Some (Ok (mkQuery (slowBackend 1 (Ok doneJob))
                (mkQueryResponse false (mkJobReference "job_1") None)
                "project" 5 10),
          [EvJobsQuery "project"
             (mkQueryRequest (mkDatasetReference "dataset" "project")
                "SELECT 1" 10);
           EvJobsGet "project" "job_1"; EvSleep 300;
           EvJobsGet "project" "job_1"]).
Proof.
  apply (Query_seeded_with_submission 2 1
           (mkService sampleConfig (slowBackend 1 (Ok doneJob)))
           "SELECT 1" [5; 10] 5 10 []
           (mkQueryResponse false (mkJobReference "job_1") None) doneJob);
    try reflexivity; try lia.
  intros [| i] Hi; [reflexivity | lia].
Defined.

(** ** What is sent to the backend *)

Lemma submissions_polls (s : Service) (jobID : string) (k : nat) :
  submissions (polls s jobID k) = [].
Proof.
  induction k as [| k IH]; [reflexivity | exact IH].
Qed.

(** A wait that returns has added polls and sleeps only. *)
Lemma waitForJob_trace (fuel : nat) (s : Service) (jobID : string)
    (t t' : trace) (out : result unit) :
  waitForJob fuel s jobID t = Some (out, t') ->
  exists k, t' = t ++ polls s jobID k ++ [EvJobsGet (ProjectID (config s)) jobID].
Proof.
  revert t. induction fuel as [| fuel IH]; intros t Hout; [discriminate |].
  rewrite waitForJob_step in Hout.
  assert (Hnow : forall r : result unit,
            Some (r, t ++ [EvJobsGet (ProjectID (config s)) jobID]) = Some (out, t') ->
            exists k, t' = t ++ polls s jobID k
                           ++ [EvJobsGet (ProjectID (config s)) jobID]).
  { intros r Hr. injection Hr as _ <-. now exists 0%nat. }
  destruct (status_at s jobID t 0) as [job | err]; [| now apply (Hnow _ Hout)].
  destruct (State (Status job) =? "DONE")%string.
  - destruct (ErrorResult (Status job)); now apply (Hnow _ Hout).
  - destruct (IH _ Hout) as [k ->]. exists (S k).
    simpl. now rewrite <- !app_assoc.
Qed.

(** C9: the offset is not sent.  A run of [Query] that returns has
    submitted one request, the one that [requestQuery] builds from the
    config, the query and the page size; and two runs that differ in the
    offset only make the same calls and end alike, but for the offset of
    the cursor. *)
Theorem Query_offset_not_sent (fuel : nat) (s : Service) (query : string)
    (args args' : list uint64) (start start' maxResults : uint64)
    (t : trace) :
  queryArgs args = Ok (start, maxResults) ->
  queryArgs args' = Ok (start', maxResults) ->
  (forall out t',
     Service_Query fuel s query args t = Some (out, t') ->
     submissions t' =
       submissions t ++ [EvJobsQuery (ProjectID (config s))
                           (buildRequest s query maxResults)]) /\
  Service_Query fuel s query args' t =
    map_cursor (with_offset start') (Service_Query fuel s query args t).
Proof.
  intros Hargs Hargs'. split.
  - intros out t'.
    rewrite (Query_run s query args start maxResults t Hargs).
    assert (Hsub : submissions (submitted s query maxResults t) =
                   submissions t ++ [EvJobsQuery (ProjectID (config s))
                                       (buildRequest s query maxResults)]).
    { unfold submitted, submissions. now rewrite filter_app. }
    destruct (submission s query maxResults t) as [resp | err].
    + simpl. destruct (JobComplete resp).
      * intros H. injection H as _ <-. exact Hsub.
      * destruct (waitForJob fuel s _ _) as [[r u] |] eqn:Hwait;
          [| discriminate].
        destruct (waitForJob_trace _ _ _ _ _ _ Hwait) as [k ->].
        intros H.
        assert (Ht' : t' = submitted s query maxResults t
                           ++ polls s (JobId (JobReference_ resp)) k
                           ++ [EvJobsGet (ProjectID (config s))
                                 (JobId (JobReference_ resp))]).
        { destruct r; injection H as _ <-; reflexivity. }
        rewrite Ht'. unfold submissions in *.
        rewrite !filter_app, Hsub.
        fold (submissions (polls s (JobId (JobReference_ resp)) k)).
        rewrite submissions_polls. simpl. now rewrite app_nil_r.
    + intros H. injection H as _ <-. exact Hsub.
  - rewrite (Query_run s query args start maxResults t Hargs),
            (Query_run s query args' start' maxResults t Hargs').
    destruct (submission s query maxResults t) as [resp | err]; [| reflexivity].
    simpl. destruct (JobComplete resp); [reflexivity |].
    now destruct (waitForJob fuel s _ _) as [[[u | err] t'] |].
Qed.

Lemma Query_offset_not_sent_witness :
  Service_Query 2 (mkService sampleConfig (slowBackend 1 (Ok doneJob)))
    "SELECT 1" [7; 10] [] =
  map_cursor (with_offset 7)
    (Service_Query 2 (mkService sampleConfig (slowBackend 1 (Ok doneJob)))
       "SELECT 1" [5; 10] []).
Proof.
  apply (Query_offset_not_sent 2
           (mkService sampleConfig (slowBackend 1 (Ok doneJob)))
           "SELECT 1" [5; 10] [7; 10] 5 7 10 []); reflexivity.
Defined.

(** ** The result-limit hint *)

Lemma int64_of_uint64_small (z : uint64) :
  0 <= z < 2 ^ 63 -> int64_of_uint64 z = z.
Proof.
  intros Hz. unfold int64_of_uint64.
  rewrite Z.mod_small; lia.
Qed.

Lemma int64_of_uint64_large (z : uint64) :
  2 ^ 63 <= z < 2 ^ 64 -> int64_of_uint64 z = z - 2 ^ 64.
Proof.
  intros Hz. unfold int64_of_uint64.
  replace (z + 2 ^ 63) with ((z - 2 ^ 63) + 1 * 2 ^ 64) by lia.
  rewrite Z.mod_add by lia. rewrite Z.mod_small; lia.
Qed.

(** The request is scoped to the configured dataset and project and holds
    the query as given. *)
Lemma buildRequest_scope (s : Service) (query : string) (maxResults : uint64) :
  DefaultDataset (buildRequest s query maxResults) =
    mkDatasetReference (DatasetID (config s)) (ProjectID (config s)) /\
  Query_ (buildRequest s query maxResults) = query.
Proof.
  unfold buildRequest. now destruct (0 <? maxResults).
Qed.

(** A page size of 0 sets no hint; a page size below 2^63 is the hint. *)
Lemma buildRequest_limit_in_range (s : Service) (query : string)
    (maxResults : uint64) :
  0 <= maxResults < 2 ^ 63 ->
  limit_hint (buildRequest s query maxResults) =
    if 0 <? maxResults then Some maxResults else None.
Proof.
  intros Hrange. unfold buildRequest, limit_hint.
  destruct (0 <? maxResults) eqn:Hpos; simpl; [| reflexivity].
  rewrite int64_of_uint64_small by exact Hrange.
  apply Z.ltb_lt in Hpos.
  destruct (maxResults =? 0) eqn:Hz; [| reflexivity].
  apply Z.eqb_eq in Hz. lia.
Qed.

(** A hint is set exactly when the page size is not 0. *)
Lemma buildRequest_limit_set (s : Service) (query : string)
    (maxResults : uint64) :
  uint64_range maxResults ->
  limit_hint (buildRequest s query maxResults) <> None <-> 0 < maxResults.
Proof.
  unfold uint64_range. intros Hrange. unfold buildRequest, limit_hint.
  destruct (0 <? maxResults) eqn:Hpos; simpl.
  - apply Z.ltb_lt in Hpos. split; [intros _; exact Hpos | intros _].
    destruct (Z_lt_ge_dec maxResults (2 ^ 63)) as [Hlt | Hge].
    + rewrite int64_of_uint64_small by lia.
      destruct (maxResults =? 0) eqn:Hz; [| discriminate].
      apply Z.eqb_eq in Hz. lia.
    + rewrite int64_of_uint64_large by lia.
      destruct (maxResults - 2 ^ 64 =? 0) eqn:Hz; [| discriminate].
      apply Z.eqb_eq in Hz. lia.
  - apply Z.ltb_ge in Hpos. split; [intros H; now contradiction H | lia].
Qed.

(** A page size from 2^63 on comes out as a negative hint. *)
Lemma buildRequest_limit_out_of_range (s : Service) (query : string)
    (maxResults : uint64) :
  2 ^ 63 <= maxResults < 2 ^ 64 ->
  limit_hint (buildRequest s query maxResults) = Some (maxResults - 2 ^ 64).
Proof.
  intros Hrange. unfold buildRequest, limit_hint.
  destruct (0 <? maxResults) eqn:Hpos; [| apply Z.ltb_ge in Hpos; lia].
  simpl. rewrite int64_of_uint64_large by exact Hrange.
  destruct (maxResults - 2 ^ 64 =? 0) eqn:Hz; [| reflexivity].
  apply Z.eqb_eq in Hz. lia.
Qed.

(** C4, at the page size 2^63 = 9223372036854775808: the request that
    [Query] submits carries the hint -9223372036854775808, not the page
    size. *)
Theorem requestQuery_limit_wraps :
  uint64_range 9223372036854775808 /\
  Service_Query 0 (mkService sampleConfig fastBackend) "SELECT 1"
    [0; 9223372036854775808] [] =
    Some (Ok (mkQuery fastBackend
                (mkQueryResponse true (mkJobReference "job_1") (Some samplePage))
                "project" 0 9223372036854775808),
          [EvJobsQuery "project"
             (mkQueryRequest (mkDatasetReference "dataset" "project")
                "SELECT 1" (-9223372036854775808))]) /\
  limit_hint
    (buildRequest (mkService sampleConfig fastBackend) "SELECT 1"
       9223372036854775808) = Some (-9223372036854775808).
Proof.
  unfold uint64_range. repeat split; try reflexivity; lia.
Qed.

(** * Further properties of [service.go] *)

(** ** [New] *)

Lemma New_trace (clientOptions : ClientOptions) (cfg : Config) (t t' : trace)
    (r : result Service) :
  New clientOptions cfg t = Some (r, t') -> t' = t ++ [EvClientService].
Proof.
  unfold New, bind, call, fail, ret.
  destruct (ClientOptions_Service clientOptions t) as [bq | e].
  - destruct ((DatasetID cfg =? "")%string || (ProjectID cfg =? "")%string);
      intros H; now injection H as _ <-.
  - intros H. now injection H as _ <-.
Qed.

Lemma New_ok_inv (clientOptions : ClientOptions) (cfg : Config) (t t' : trace)
    (svc : Service) :
  New clientOptions cfg t = Some (Ok svc, t') ->
  ClientOptions_Service clientOptions t = Ok (service svc) /\
  config svc = cfg /\
  DatasetID cfg <> ""%string /\ ProjectID cfg <> ""%string.
Proof.
  unfold New, bind, call, fail, ret.
  destruct (ClientOptions_Service clientOptions t) as [bq | e];
    [| discriminate].
  destruct (DatasetID cfg =? "")%string eqn:Hd; [discriminate |].
  destruct (ProjectID cfg =? "")%string eqn:Hp; [discriminate |].
  simpl. intros H. injection H as <- _.
  apply String.eqb_neq in Hd, Hp. now repeat split.
Qed.

(** X1: [New] gives a service exactly when the client factory gives a
    client and neither the dataset nor the project of the config is empty;
    the service then holds that config and that client, and the factory
    was consulted once, nothing else. *)
Theorem New_succeeds_iff (clientOptions : ClientOptions) (cfg : Config)
    (t t' : trace) (svc : Service) :
  New clientOptions cfg t = Some (Ok svc, t') <->
  (ClientOptions_Service clientOptions t = Ok (service svc) /\
   config svc = cfg /\
   DatasetID cfg <> ""%string /\ ProjectID cfg <> ""%string /\
   t' = t ++ [EvClientService]).
Proof.
  split.
  - intros H. destruct (New_ok_inv _ _ _ _ _ H) as (Hbq & Hcfg & Hd & Hp).
    repeat split; try assumption. exact (New_trace _ _ _ _ _ H).
  - intros (Hbq & Hcfg & Hd & Hp & ->).
    rewrite (New_valid_config clientOptions cfg t (service svc) Hd Hp Hbq).
    destruct svc as [c b]. simpl in Hcfg. now subst c.
Qed.

(** X2: when the client factory fails, [New] fails with the factory's
    error whatever the config is, valid or not. *)
Theorem New_factory_error (clientOptions : ClientOptions) (cfg : Config)
    (t : trace) (e : error) :
  ClientOptions_Service clientOptions t = Err e ->
  New clientOptions cfg t = Some (Err e, t ++ [EvClientService]).
Proof.
  intros He. unfold New, bind, call. now rewrite He.
Qed.

Lemma New_factory_error_witness :
  New brokenOptions sampleConfig [] =
    Some (Err noCredentials, [EvClientService]).
Proof.
  apply (New_factory_error brokenOptions sampleConfig [] noCredentials).
  reflexivity.
Defined.

(** ** [requestQuery] *)

Lemma requestQuery_run (s : Service) (query : string) (maxResults : uint64)
    (t : trace) :
  requestQuery s query maxResults t =
    Some (submission s query maxResults t, submitted s query maxResults t).
Proof.
  reflexivity.
Qed.

(** X3: for a page size below 2^63, [requestQuery] makes one call, whose
    request names the dataset and the project of the config, holds the
    query as given and has the page size as [MaxResults]; its hint is the
    page size when that is positive and none when it is 0. *)
Theorem requestQuery_in_range (s : Service) (query : string)
    (maxResults : uint64) (t : trace) :
  0 <= maxResults < 2 ^ 63 ->
  requestQuery s query maxResults t =
    Some (Jobs_Query_Do (service s) t (ProjectID (config s))
            (mkQueryRequest
               (mkDatasetReference (DatasetID (config s)) (ProjectID (config s)))
               query maxResults),
          t ++ [EvJobsQuery (ProjectID (config s))
                  (mkQueryRequest
                     (mkDatasetReference (DatasetID (config s))
                        (ProjectID (config s)))
                     query maxResults)]) /\
  limit_hint (buildRequest s query maxResults) =
    (if 0 <? maxResults then Some maxResults else None).
Proof.
  intros Hrange. split; [| now apply buildRequest_limit_in_range].
  rewrite requestQuery_run. unfold submission, submitted, buildRequest.
  destruct (0 <? maxResults) eqn:Hpos; simpl.
  - now rewrite int64_of_uint64_small.
  - apply Z.ltb_ge in Hpos. now replace maxResults with 0 by lia.
Qed.

Lemma requestQuery_in_range_witness :
  requestQuery (mkService sampleConfig fastBackend) "SELECT 1" 10 [] =
    Some (Ok (mkQueryResponse true (mkJobReference "job_1") (Some samplePage)),
          [EvJobsQuery "project"
             (mkQueryRequest (mkDatasetReference "dataset" "project")
                "SELECT 1" 10)]).
Proof.
  apply (requestQuery_in_range (mkService sampleConfig fastBackend)
           "SELECT 1" 10 []).
  lia.
Defined.

(** X4: for every page size that a [uint64] can hold, the request of
    [requestQuery] is scoped to the dataset and the project of the config,
    and it is without a result-limit hint exactly when the page size is
    0. *)
Theorem requestQuery_hint_iff (s : Service) (query : string)
    (maxResults : uint64) (t t' : trace) (r : result QueryResponse) :
  uint64_range maxResults ->
  requestQuery s query maxResults t = Some (r, t') ->
  exists req,
    t' = t ++ [EvJobsQuery (ProjectID (config s)) req] /\
    DatasetId (DefaultDataset req) = DatasetID (config s) /\
    ProjectId (DefaultDataset req) = ProjectID (config s) /\
    Query_ req = query /\
    (limit_hint req = None <-> maxResults = 0).
Proof.
  intros Hrange Hrun. rewrite requestQuery_run in Hrun.
  injection Hrun as _ <-.
  exists (buildRequest s query maxResults).
  destruct (buildRequest_scope s query maxResults) as [Hds Hq].
  repeat split; try assumption; try (now rewrite Hds).
  - intros Hnone.
    pose proof (buildRequest_limit_set s query maxResults Hrange) as Hset.
    unfold uint64_range in Hrange.
    destruct (Z.eq_dec maxResults 0) as [H0 | H0]; [exact H0 |].
    exfalso. apply (proj2 Hset); [lia | exact Hnone].
  - intros ->. reflexivity.
Qed.

Lemma requestQuery_hint_iff_witness :
  exists req,
    [EvJobsQuery "project"
       (mkQueryRequest (mkDatasetReference "dataset" "project") "SELECT 1"
          (-1))]
    = [] ++ [EvJobsQuery "project" req] /\
    DatasetId (DefaultDataset req) = "dataset"%string /\
    ProjectId (DefaultDataset req) = "project"%string /\
    Query_ req = "SELECT 1"%string /\
    (limit_hint req = None <-> 18446744073709551615 = 0).
Proof.
  apply (requestQuery_hint_iff (mkService sampleConfig fastBackend)
           "SELECT 1" 18446744073709551615 []
           [EvJobsQuery "project"
              (mkQueryRequest (mkDatasetReference "dataset" "project")
                 "SELECT 1" (-1))]
           (Ok (mkQueryResponse true (mkJobReference "job_1")
                  (Some samplePage)))).
  - unfold uint64_range. lia.
  - reflexivity.
Defined.

(** ** [waitForJob] *)

(** A wait that returns has stopped at the first answer that ends it. *)
Lemma waitForJob_inversion (fuel : nat) (s : Service) (jobID : string)
    (t t' : trace) (out : result unit) :
  waitForJob fuel s jobID t = Some (out, t') ->
  exists k,
    (k < fuel)%nat /\
    (forall i, (i < k)%nat -> terminal (status_at s jobID t i) = false) /\
    terminal (status_at s jobID t k) = true /\
    t' = t ++ polls s jobID k ++ [EvJobsGet (ProjectID (config s)) jobID] /\
    out = match status_at s jobID t k with
          | Err err => Err err
          | Ok job =>
              match ErrorResult (Status job) with
              | Some e => Err (errors_New (Message e))
              | None => Ok tt
              end
          end.
Proof.
  revert t. induction fuel as [| fuel IH]; intros t Hout; [discriminate |].
  destruct (terminal (status_at s jobID t 0)) eqn:H0.
  - exists 0%nat.
    rewrite (waitForJob_returns_at s jobID 0 (S fuel) t) in Hout;
      [| intros i Hi; lia | exact H0 | lia].
    injection Hout as <- <-.
    repeat split; [lia | intros i Hi; lia | exact H0].
  - rewrite waitForJob_continue in Hout by exact H0.
    destruct (IH _ Hout) as (k & Hk & Hrun & Hterm & Ht' & Hres).
    exists (S k). rewrite status_at_shift in Hterm, Hres.
    repeat split; [lia | | exact Hterm | | exact Hres].
    + intros [| i] Hi; [exact H0 |].
      rewrite <- status_at_shift. apply Hrun. lia.
    + rewrite Ht'. simpl. now rewrite <- !app_assoc.
Qed.

(** X5: [waitForJob] returns only at the first answer that is a failed
    request or a status DONE after [k] answers that were neither, with
    [k + 1] polls made: it returns the error of the failed request, or
    the error made from the message of the payload of the status, or nil
    when the status has no payload. *)
Theorem waitForJob_returns_inv (fuel : nat) (s : Service) (jobID : string)
    (t t' : trace) (out : result unit) :
  waitForJob fuel s jobID t = Some (out, t') ->
  exists k,
    (k < fuel)%nat /\
    (forall i, (i < k)%nat -> terminal (status_at s jobID t i) = false) /\
    t' = t ++ polls s jobID k ++ [EvJobsGet (ProjectID (config s)) jobID] /\
    ((exists err, status_at s jobID t k = Err err /\ out = Err err) \/
     (exists job e,
        status_at s jobID t k = Ok job /\
        State (Status job) = "DONE"%string /\
        ErrorResult (Status job) = Some e /\
        out = Err (errors_New (Message e))) \/
     (exists job,
        status_at s jobID t k = Ok job /\
        State (Status job) = "DONE"%string /\
        ErrorResult (Status job) = None /\
        out = Ok tt)).
Proof.
  intros Hout.
  destruct (waitForJob_inversion _ _ _ _ _ _ Hout)
    as (k & Hk & Hrun & Hterm & Ht' & Hres).
  exists k. repeat split; try assumption.
  destruct (status_at s jobID t k) as [job | err].
  - right. simpl in Hterm. apply String.eqb_eq in Hterm.
    destruct (ErrorResult (Status job)) as [e |] eqn:He.
    + left. now exists job, e.
    + right. now exists job.
  - left. now exists err.
Qed.

Lemma waitForJob_returns_inv_witness :
  exists k,
    (k < 5)%nat /\
    (forall i, (i < k)%nat ->
       terminal
         (status_at (mkService sampleConfig (slowBackend 1 (Ok doneJob)))
            "job_1" [] i) = false) /\
    [EvJobsGet "project" "job_1"; EvSleep 300; EvJobsGet "project" "job_1"]
    = [] ++ polls (mkService sampleConfig (slowBackend 1 (Ok doneJob)))
               "job_1" k
         ++ [EvJobsGet "project" "job_1"] /\
    ((exists err,
        status_at (mkService sampleConfig (slowBackend 1 (Ok doneJob)))
          "job_1" [] k = Err err /\ Ok tt = Err err) \/
     (exists job e,
        status_at (mkService sampleConfig (slowBackend 1 (Ok doneJob)))
          "job_1" [] k = Ok job /\
        State (Status job) = "DONE"%string /\
        ErrorResult (Status job) = Some e /\
        Ok tt = Err (errors_New (Message e))) \/
     (exists job,
        status_at (mkService sampleConfig (slowBackend 1 (Ok doneJob)))
          "job_1" [] k = Ok job /\
        State (Status job) = "DONE"%string /\
        ErrorResult (Status job) = None /\
        Ok tt = Ok tt)).
Proof.
  apply (waitForJob_returns_inv 5
           (mkService sampleConfig (slowBackend 1 (Ok doneJob))) "job_1" []
           [EvJobsGet "project" "job_1"; EvSleep 300;
            EvJobsGet "project" "job_1"] (Ok tt)).
  reflexivity.
Defined.

Lemma slept_app (t u : trace) : slept (t ++ u) = slept t + slept u.
Proof.
  induction t as [| e t IH]; [reflexivity |].
  destruct e; simpl; rewrite IH; lia.
Qed.

Lemma slept_polls (s : Service) (jobID : string) (k : nat) :
  slept (polls s jobID k) = 300 * Z.of_nat k.
Proof.
  induction k as [| k IH]; [reflexivity |].
  cbn [polls slept]. rewrite IH. lia.
Qed.

(** X6: a wait that returns has slept 300 ms after each poll but the
    last: with [n] polls made, [n >= 1], it slept [300 * (n - 1)] ms in
    all, and it submitted nothing. *)
Theorem waitForJob_sleeps (fuel : nat) (s : Service) (jobID : string)
    (t t' : trace) (out : result unit) :
  waitForJob fuel s jobID t = Some (out, t') ->
  (count_polls t < count_polls t')%nat /\
  slept t' - slept t =
    300 * (Z.of_nat (count_polls t') - Z.of_nat (count_polls t) - 1) /\
  submissions t' = submissions t.
Proof.
  intros Hout. destruct (waitForJob_trace _ _ _ _ _ _ Hout) as [k ->].
  rewrite !count_polls_app, count_polls_polls, !slept_app, slept_polls.
  unfold submissions. rewrite !filter_app.
  fold (submissions (polls s jobID k)). rewrite submissions_polls.
  change (count_polls [EvJobsGet (ProjectID (config s)) jobID]) with 1%nat.
  change (slept [EvJobsGet (ProjectID (config s)) jobID]) with 0.
  change (filter is_submit [EvJobsGet (ProjectID (config s)) jobID])
    with (@nil event).
  rewrite !app_nil_r. repeat split; lia.
Qed.

Lemma waitForJob_sleeps_witness :
  (count_polls [] <
   count_polls [EvJobsGet "project" "job_1"; EvSleep 300;
                EvJobsGet "project" "job_1"; EvSleep 300;
                EvJobsGet "project" "job_1"])%nat /\
  slept [EvJobsGet "project" "job_1"; EvSleep 300;
         EvJobsGet "project" "job_1"; EvSleep 300;
         EvJobsGet "project" "job_1"] - slept [] =
    300 * (Z.of_nat
             (count_polls [EvJobsGet "project" "job_1"; EvSleep 300;
                           EvJobsGet "project" "job_1"; EvSleep 300;
                           EvJobsGet "project" "job_1"])
           - Z.of_nat (count_polls []) - 1) /\
  submissions [EvJobsGet "project" "job_1"; EvSleep 300;
               EvJobsGet "project" "job_1"; EvSleep 300;
               EvJobsGet "project" "job_1"] = submissions [].
Proof.
  apply (waitForJob_sleeps 3
           (mkService sampleConfig (slowBackend 2 (Ok doneJob))) "job_1" []
           _ (Ok tt)).
  reflexivity.
Defined.


(** ** [Service.Query] *)

Lemma queryArgs_err_inv (args : list uint64) (e : error) :
  queryArgs args = Err e ->
  (2 < List.length args)%nat /\
  e = Errorf_too_many_arguments (List.length args).
Proof.
  destruct args as [| a0 [| a1 [| a2 rest]]]; simpl; intros H;
    try discriminate.
  injection H as <-. split; [lia | reflexivity].
Qed.

(** X7: when the submission fails, [Query] fails with the error of the
    submission, as it is, and polls no status. *)
Theorem Query_submit_error (fuel : nat) (s : Service) (query : string)
    (args : list uint64) (start maxResults : uint64) (t : trace)
    (err : error) :
  queryArgs args = Ok (start, maxResults) ->
  submission s query maxResults t = Err err ->
  Service_Query fuel s query args t =
    Some (Err err,
          t ++ [EvJobsQuery (ProjectID (config s))
                  (buildRequest s query maxResults)]) /\
  count_polls (submitted s query maxResults t) = count_polls t.
Proof.
  intros Hargs Hsub. split.
  - now rewrite (Query_run s query args start maxResults t Hargs), Hsub.
  - unfold submitted. rewrite count_polls_app.
    change (count_polls [EvJobsQuery (ProjectID (config s))
                           (buildRequest s query maxResults)]) with 0%nat.
    lia.
Qed.

Lemma Query_submit_error_witness :
  Service_Query 0 (mkService sampleConfig downBackend) "SELECT 1" [5; 10] [] =
    Some (Err connectionReset,
          [EvJobsQuery "project"
             (mkQueryRequest (mkDatasetReference "dataset" "project")
                "SELECT 1" 10)]).
Proof.
  apply (Query_submit_error 0 (mkService sampleConfig downBackend) "SELECT 1"
           [5; 10] 5 10 [] connectionReset); reflexivity.
Defined.

(** X8: [Query] returns a cursor only for a job that the backend has
    reported complete, in the answer to the submission or by a status DONE
    without an error payload; the cursor holds the client of the service,
    the answer to the submission, the project of the config, and the
    offset and the page size read from the arguments. *)
Theorem Query_cursor_inv (fuel : nat) (s : Service) (query : string)
    (args : list uint64) (t t' : trace) (c : Query) :
  Service_Query fuel s query args t = Some (Ok c, t') ->
  exists start maxResults resp,
    queryArgs args = Ok (start, maxResults) /\
    submission s query maxResults t = Ok resp /\
    c = mkQuery (service s) resp (ProjectID (config s)) start maxResults /\
    ((JobComplete resp = true /\ t' = submitted s query maxResults t) \/
     (JobComplete resp = false /\
      exists k job,
        status_at s (JobId (JobReference_ resp))
          (submitted s query maxResults t) k = Ok job /\
        State (Status job) = "DONE"%string /\
        ErrorResult (Status job) = None /\
        t' = submitted s query maxResults t
             ++ polls s (JobId (JobReference_ resp)) k
             ++ [EvJobsGet (ProjectID (config s))
                   (JobId (JobReference_ resp))])).
Proof.
  intros Hrun.
  destruct (queryArgs args) as [[start maxResults] | e] eqn:Hargs.
  2: { unfold Service_Query in Hrun. rewrite Hargs in Hrun. discriminate. }
  rewrite (Query_run s query args start maxResults t Hargs) in Hrun.
  exists start, maxResults.
  destruct (submission s query maxResults t) as [resp | err]; [| discriminate].
  exists resp. simpl in Hrun.
  destruct (JobComplete resp) eqn:Hdone.
  - injection Hrun as <- <-. repeat split. now left.
  - destruct (waitForJob fuel s _ _) as [[[u | err] t''] |] eqn:Hwait;
      try discriminate.
    injection Hrun as <- <-.
    destruct (waitForJob_inversion _ _ _ _ _ _ Hwait)
      as (k & _ & _ & Hterm & Ht' & Hres).
    repeat split. right. split; [reflexivity |].
    destruct (status_at s _ _ k) as [job | err] eqn:Hst; [| discriminate].
    simpl in Hterm. apply String.eqb_eq in Hterm.
    destruct (ErrorResult (Status job)) eqn:He; [discriminate |].
    exists k, job. repeat split; assumption.
Qed.

Lemma Query_cursor_inv_witness :
  exists start maxResults resp,
    queryArgs [5] = Ok (start, maxResults) /\
    submission (mkService sampleConfig fastBackend) "SELECT 1" maxResults []
      = Ok resp /\
    mkQuery fastBackend
      (mkQueryResponse true (mkJobReference "job_1") (Some samplePage))
      "project" 5 0
    = mkQuery fastBackend resp "project" start maxResults /\
    ((JobComplete resp = true /\
      [EvJobsQuery "project"
         (mkQueryRequest (mkDatasetReference "dataset" "project")
            "SELECT 1" 0)]
      = submitted (mkService sampleConfig fastBackend) "SELECT 1"
          maxResults []) \/
     (JobComplete resp = false /\
      exists k job,
        status_at (mkService sampleConfig fastBackend)
          (JobId (JobReference_ resp))
          (submitted (mkService sampleConfig fastBackend) "SELECT 1"
             maxResults []) k = Ok job /\
        State (Status job) = "DONE"%string /\
        ErrorResult (Status job) = None /\
        [EvJobsQuery "project"
           (mkQueryRequest (mkDatasetReference "dataset" "project")
              "SELECT 1" 0)]
        = submitted (mkService sampleConfig fastBackend) "SELECT 1"
            maxResults []
          ++ polls (mkService sampleConfig fastBackend)
               (JobId (JobReference_ resp)) k
          ++ [EvJobsGet "project" (JobId (JobReference_ resp))])).
Proof.
  apply (Query_cursor_inv 0 (mkService sampleConfig fastBackend) "SELECT 1"
           [5] []
           [EvJobsQuery "project"
              (mkQueryRequest (mkDatasetReference "dataset" "project")
                 "SELECT 1" 0)]
           (mkQuery fastBackend
              (mkQueryResponse true (mkJobReference "job_1") (Some samplePage))
              "project" 5 0)).
  reflexivity.
Defined.

(** X9: an error of [Query] is the argument error (nothing was sent), or
    the error of the submission, or the error of a failed poll, or the
    error made from the message of the payload of a status DONE. *)
Theorem Query_error_inv (fuel : nat) (s : Service) (query : string)
    (args : list uint64) (t t' : trace) (err : error) :
  Service_Query fuel s query args t = Some (Err err, t') ->
  ((2 < List.length args)%nat /\
   err = Errorf_too_many_arguments (List.length args) /\ t' = t) \/
  (exists start maxResults,
     queryArgs args = Ok (start, maxResults) /\
     ((submission s query maxResults t = Err err /\
       t' = submitted s query maxResults t) \/
      (exists resp k,
         submission s query maxResults t = Ok resp /\
         JobComplete resp = false /\
         t' = submitted s query maxResults t
              ++ polls s (JobId (JobReference_ resp)) k
              ++ [EvJobsGet (ProjectID (config s))
                    (JobId (JobReference_ resp))] /\
         (status_at s (JobId (JobReference_ resp))
            (submitted s query maxResults t) k = Err err \/
          exists job e,
            status_at s (JobId (JobReference_ resp))
              (submitted s query maxResults t) k = Ok job /\
            State (Status job) = "DONE"%string /\
            ErrorResult (Status job) = Some e /\
            err = errors_New (Message e))))).
Proof.
  intros Hrun.
  destruct (queryArgs args) as [[start maxResults] | e] eqn:Hargs.
  - right. exists start, maxResults. split; [reflexivity |].
    rewrite (Query_run s query args start maxResults t Hargs) in Hrun.
    destruct (submission s query maxResults t) as [resp | err0].
    + right. simpl in Hrun.
      destruct (JobComplete resp) eqn:Hdone; [discriminate |].
      destruct (waitForJob fuel s _ _) as [[[u | err1] t''] |] eqn:Hwait;
        try discriminate.
      injection Hrun as -> ->.
      destruct (waitForJob_inversion _ _ _ _ _ _ Hwait)
        as (k & _ & _ & Hterm & Ht' & Hres).
      exists resp, k. split; [reflexivity |]. split; [exact Hdone |].
      split; [exact Ht' |].
      destruct (status_at s _ _ k) as [job | err2] eqn:Hst.
      * right. simpl in Hterm. apply String.eqb_eq in Hterm.
        destruct (ErrorResult (Status job)) as [p |] eqn:He; [| discriminate].
        injection Hres as ->. exists job, p. repeat split; assumption.
      * left. now injection Hres as ->.
    + left. now injection Hrun as -> <-.
  - left. unfold Service_Query in Hrun. rewrite Hargs in Hrun.
    injection Hrun as -> <-.
    destruct (queryArgs_err_inv _ _ Hargs) as [Hlen ->]. now repeat split.
Qed.

Lemma Query_error_inv_witness :
  ((2 < List.length [1; 2; 3])%nat /\
   errors_New "too many arguments given to query: 3"
   = Errorf_too_many_arguments (List.length [1; 2; 3]) /\
   @nil event = []) \/
  (exists start maxResults,
     queryArgs [1; 2; 3] = Ok (start, maxResults) /\
     ((submission (mkService sampleConfig fastBackend) "SELECT 1"
         maxResults []
       = Err (errors_New "too many arguments given to query: 3") /\
       [] = submitted (mkService sampleConfig fastBackend) "SELECT 1"
              maxResults []) \/
      (exists resp k,
         submission (mkService sampleConfig fastBackend) "SELECT 1"
           maxResults [] = Ok resp /\
         JobComplete resp = false /\
         [] = submitted (mkService sampleConfig fastBackend) "SELECT 1"
                maxResults []
              ++ polls (mkService sampleConfig fastBackend)
                   (JobId (JobReference_ resp)) k
              ++ [EvJobsGet "project" (JobId (JobReference_ resp))] /\
         (status_at (mkService sampleConfig fastBackend)
            (JobId (JobReference_ resp))
            (submitted (mkService sampleConfig fastBackend) "SELECT 1"
               maxResults []) k
          = Err (errors_New "too many arguments given to query: 3") \/
          exists job e,
            status_at (mkService sampleConfig fastBackend)
              (JobId (JobReference_ resp))
              (submitted (mkService sampleConfig fastBackend) "SELECT 1"
                 maxResults []) k = Ok job /\
            State (Status job) = "DONE"%string /\
            ErrorResult (Status job) = Some e /\
            errors_New "too many arguments given to query: 3"
            = errors_New (Message e))))).
Proof.
  apply (Query_error_inv 0 (mkService sampleConfig fastBackend) "SELECT 1"
           [1; 2; 3] [] []
           (errors_New "too many arguments given to query: 3")).
  reflexivity.
Defined.

(** X10: once a job is submitted and not complete, [Query] returns
    exactly when some answer to a poll is a failed request or a status
    DONE.  While every status has another state, whatever error payload it
    carries, [Query] has not returned after any number of polls. *)
Theorem Query_returns_iff (s : Service) (query : string)
    (args : list uint64) (start maxResults : uint64) (t : trace)
    (resp : QueryResponse) :
  queryArgs args = Ok (start, maxResults) ->
  submission s query maxResults t = Ok resp ->
  JobComplete resp = false ->
  ((exists fuel out, Service_Query fuel s query args t = Some out) <->
   (exists k,
      terminal (status_at s (JobId (JobReference_ resp))
                  (submitted s query maxResults t) k) = true)) /\
  ((forall k,
      terminal (status_at s (JobId (JobReference_ resp))
                  (submitted s query maxResults t) k) = false) ->
   forall fuel, Service_Query fuel s query args t = None).
Proof.
  intros Hargs Hsub Hnot.
  assert (Hrun : forall fuel,
            Service_Query fuel s query args t =
              match waitForJob fuel s (JobId (JobReference_ resp))
                      (submitted s query maxResults t) with
              | None => None
              | Some (Err err, t') => Some (Err err, t')
              | Some (Ok _, t') =>
                  Some (Ok (newQuery (service s) resp (ProjectID (config s))
                              start maxResults), t')
              end).
  { intros fuel.
    rewrite (Query_run s query args start maxResults t Hargs), Hsub.
    simpl. now rewrite Hnot. }
  split; [split |].
  - intros [fuel [out Hout]]. apply waitForJob_returns_iff.
    exists fuel. rewrite Hrun in Hout.
    destruct (waitForJob fuel s _ _) as [w |]; [now exists w | discriminate].
  - intros Hk. apply waitForJob_returns_iff in Hk.
    destruct Hk as [fuel [[[u | err] t'] Hw]]; exists fuel;
      rewrite Hrun, Hw; eexists; reflexivity.
  - intros Hrunning fuel. rewrite Hrun.
    now rewrite (waitForJob_diverges s _ fuel _ Hrunning).
Qed.

Lemma Query_returns_iff_witness :
  Service_Query 40 (mkService sampleConfig stalledBackend) "SELECT 1" [] [] = None.
Proof.
  apply (proj2 (Query_returns_iff (mkService sampleConfig stalledBackend)
                  "SELECT 1" [] 0 0 []
                  (mkQueryResponse false (mkJobReference "job_1") None)
                  eq_refl eq_refl eq_refl)).
  intros k. reflexivity.
Defined.



(** ** [New], then [Query] *)



